(** * Recurrence and forecast engine of personal_budget/state.py

    A shallow embedding of [personal_budget/state.py]: recurrences,
    financial entries, monthly forecasts and the financial state.  Python
    exceptions are values of [py_exc]; a computation that may raise
    returns a [result]. *)

From Stdlib Require Import ZArith List String Bool Lia.
From Stdlib Require Import DecimalString.
Import ListNotations.

Open Scope Z_scope.

(** ** Python exceptions and the error monad *)

Inductive py_exc : Type :=
| ValueError
| ZeroDivisionError
| AssertionError.

Inductive result (A : Type) : Type :=
| Ok (a : A)
| Err (e : py_exc).
Arguments Ok {A} a.
Arguments Err {A} e.

Definition rbind {A B} (m : result A) (k : A -> result B) : result B :=
  match m with
  | Ok a => k a
  | Err e => Err e
  end.

Notation "x <- m ;; k" := (rbind m (fun x => k))
  (at level 61, m at next level, right associativity).

(** ** datetime.date *)

Record date : Type := mkDate { year : Z; month : Z; day : Z }.

Definition date_eqb (a b : date) : bool :=
  (year a =? year b) && (month a =? month b) && (day a =? day b).

Definition is_leap (y : Z) : bool :=
  (y mod 4 =? 0) && (negb (y mod 100 =? 0) || (y mod 400 =? 0)).

Definition days_in_month (y m : Z) : Z :=
  if m =? 2 then (if is_leap y then 29 else 28)
  else if (m =? 4) || (m =? 6) || (m =? 9) || (m =? 11) then 30
  else 31.

(** [date.replace(month=m)]: the new date is validated as the constructor
    does, raising [ValueError] for a month outside 1..12 or a day beyond the
    end of the new month.  Nothing is normalised. *)
Definition date_replace_month (d : date) (m : Z) : result date :=
  if (1 <=? m) && (m <=? 12) then
    if (1 <=? day d) && (day d <=? days_in_month (year d) m)
    then Ok (mkDate (year d) m (day d))
    else Err ValueError
  else Err ValueError.

(** ** decimal.Decimal under the default context

    A finite Decimal is [coef * 10 ^ dexp].  Arithmetic computes the exact
    result and rounds it to [prec] = 28 significant digits with
    ROUND_HALF_EVEN, as the default context does.  The context's exponent
    limits (Emax = 999999, Emin = -999999) are not modelled. *)

Record decimal : Type := mkDec { coef : Z; dexp : Z }.

Definition prec : Z := 28.

(** Numeric equality [==] of two Decimals. *)
Definition deqb (a b : decimal) : bool :=
  let e := Z.min (dexp a) (dexp b) in
  coef a * 10 ^ (dexp a - e) =? coef b * 10 ^ (dexp b - e).

(** [Decimal()] and [Decimal(0)]. *)
Definition dzero : decimal := mkDec 0 0.

(** Exact sum, on the smaller of the two exponents. *)
Definition dexact_add (a b : decimal) : decimal :=
  let e := Z.min (dexp a) (dexp b) in
  mkDec (coef a * 10 ^ (dexp a - e) + coef b * 10 ^ (dexp b - e)) e.

Definition dneg (a : decimal) : decimal := mkDec (- coef a) (dexp a).

(** Number of decimal digits of a non-negative integer. *)
Fixpoint ndigits_aux (fuel : nat) (c : Z) : Z :=
  match fuel with
  | O => 1
  | S f => if c <? 10 then 1 else 1 + ndigits_aux f (c / 10)
  end.

Definition ndigits (c : Z) : Z := ndigits_aux (Z.to_nat (Z.log2 c + 1)) c.

(** Rounding of a coefficient to [prec] digits, ROUND_HALF_EVEN; a carry
    to [10 ^ prec] drops one more digit. *)
Definition dround (d : decimal) : decimal :=
  let c := Z.abs (coef d) in
  if c <? 10 ^ prec then d
  else
    let k := ndigits c - prec in
    let p := 10 ^ k in
    let q := c / p in
    let r := c mod p in
    let q1 := if p <? 2 * r then q + 1
              else if 2 * r =? p then (if Z.odd q then q + 1 else q)
              else q in
    if q1 =? 10 ^ prec
    then mkDec (Z.sgn (coef d) * (q1 / 10)) (dexp d + k + 1)
    else mkDec (Z.sgn (coef d) * q1) (dexp d + k).

(** [a + b] and [a - b] on Decimals. *)
Definition dadd (a b : decimal) : decimal := dround (dexact_add a b).
Definition dsub (a b : decimal) : decimal := dround (dexact_add a (dneg b)).

(** ** Python dicts, as insertion-ordered association lists *)

Definition dict (V : Type) := list (string * V).

Fixpoint dict_get {V} (k : string) (d : dict V) : option V :=
  match d with
  | [] => None
  | (k', v) :: t => if String.eqb k k' then Some v else dict_get k t
  end.

(** [d[k] = v]: an existing key keeps its position, a new one is appended. *)
Fixpoint dict_set {V} (k : string) (v : V) (d : dict V) : dict V :=
  match d with
  | [] => [(k, v)]
  | (k', v') :: t =>
      if String.eqb k k' then (k, v) :: t else (k', v') :: dict_set k v t
  end.

Definition dict_values {V} (d : dict V) : list V := map snd d.

(** ** Recurrence *)

Inductive RecurrenceType : Type := ONE_TIME | MONTHLY | ANNUAL.

Definition RecurrenceType_eqb (a b : RecurrenceType) : bool :=
  match a, b with
  | ONE_TIME, ONE_TIME | MONTHLY, MONTHLY | ANNUAL, ANNUAL => true
  | _, _ => false
  end.

(** The fields of [Recurrence]; [every] is a plain [int] (default 1). *)
Record Recurrence : Type := mkRecurrence {
  start_date : date;
  rtype : RecurrenceType;
  every : Z;
  end_date : option date
}.

(** Python's [a % b] on ints: floor modulo, [ZeroDivisionError] for 0. *)
Definition py_mod (a b : Z) : result Z :=
  if b =? 0 then Err ZeroDivisionError else Ok (a mod b).

Definition will_occur_on_month (r : Recurrence) (month_date : date)
  : result bool :=
  if RecurrenceType_eqb (rtype r) ONE_TIME then
    Ok (Z.eqb (month (start_date r)) (month month_date)
        && Z.eqb (year (start_date r)) (year month_date))
  else if RecurrenceType_eqb (rtype r) MONTHLY then
    x <- py_mod (month month_date) (every r) ;;
    y <- py_mod (month (start_date r)) (every r) ;;
    Ok (Z.eqb x y)
  else if RecurrenceType_eqb (rtype r) ANNUAL then
    Ok (Z.eqb (month (start_date r)) (month month_date))
  else Err ValueError.

(** ** FinancialEntry *)

Inductive EntryType : Type := INCOME | EXPENSE.

Record FinancialEntry : Type := mkEntry {
  amount : decimal;
  description : string;
  etype : EntryType;
  recurrence : Recurrence;
  category : string
}.

Definition entry_will_occur_on_month (e : FinancialEntry) (m : date)
  : result bool :=
  will_occur_on_month (recurrence e) m.

Definition EntryType_eqb (a b : EntryType) : bool :=
  match a, b with
  | INCOME, INCOME | EXPENSE, EXPENSE => true
  | _, _ => false
  end.

Definition option_date_eqb (a b : option date) : bool :=
  match a, b with
  | Some x, Some y => date_eqb x y
  | None, None => true
  | _, _ => false
  end.

(** Pydantic's [==] on models: same class and field-wise [==]. *)
Definition recurrence_eqb (a b : Recurrence) : bool :=
  date_eqb (start_date a) (start_date b)
  && RecurrenceType_eqb (rtype a) (rtype b)
  && Z.eqb (every a) (every b)
  && option_date_eqb (end_date a) (end_date b).

Definition entry_eqb (a b : FinancialEntry) : bool :=
  deqb (amount a) (amount b)
  && String.eqb (description a) (description b)
  && EntryType_eqb (etype a) (etype b)
  && recurrence_eqb (recurrence a) (recurrence b)
  && String.eqb (category a) (category b).

(** ** MonthlyForecast *)

Record MonthlyForecast : Type := mkForecast {
  fmonth : date;
  expenses_by_category : dict decimal;
  income_by_category : dict decimal
}.

Record Balance : Type := mkBalance {
  total_income : decimal;
  total_expenses : decimal;
  balance : decimal
}.

(** [sum(values)] starts from the int [0]; [0 + x] is [Decimal(0) + x]. *)
Definition py_sum (l : list decimal) : decimal := fold_left dadd l dzero.

Definition get_balance (f : MonthlyForecast) : Balance :=
  let income := py_sum (dict_values (income_by_category f)) in
  let expenses := py_sum (dict_values (expenses_by_category f)) in
  mkBalance income expenses (dsub income expenses).

(** [d[k]] on a [defaultdict(Decimal)]: a missing key reads [Decimal()]. *)
Definition dict_get_default (k : string) (d : dict decimal) : decimal :=
  match dict_get k d with Some v => v | None => dzero end.

(** [forecast[k] += a] on a [defaultdict(Decimal)]. *)
Definition dd_add (k : string) (a : decimal) (d : dict decimal) : dict decimal :=
  dict_set k (dadd (dict_get_default k d) a) d.

(** The loop of [_build_forecast_by_category_for_month], from the
    dictionary built so far. *)
Fixpoint build_loop (m : date) (entries : list FinancialEntry)
    (forecast : dict decimal) : result (dict decimal) :=
  match entries with
  | [] => Ok forecast
  | e :: t =>
      b <- entry_will_occur_on_month e m ;;
      if b then build_loop m t (dd_add (category e) (amount e) forecast)
      else build_loop m t forecast
  end.

Definition build_forecast_by_category_for_month (m : date)
    (entries : list FinancialEntry) : result (dict decimal) :=
  build_loop m entries [].

(** Keyword arguments are evaluated in order: expenses, then income. *)
Definition from_financial_entries (m : date)
    (income_entries expenses_entries : list FinancialEntry)
    : result MonthlyForecast :=
  ex <- build_forecast_by_category_for_month m expenses_entries ;;
  inc <- build_forecast_by_category_for_month m income_entries ;;
  Ok (mkForecast m ex inc).

(** ** FinancialState *)

Record FinancialState : Type := mkState {
  income_entries : list FinancialEntry;
  expense_entries : list FinancialEntry;
  income_categories : list string;
  expense_categories : list string
}.

Definition empty_state : FinancialState := mkState [] [] [] [].

Definition entries_of (st : FinancialState) (t : EntryType)
  : list FinancialEntry :=
  match t with
  | INCOME => income_entries st
  | EXPENSE => expense_entries st
  end.

Definition set_entries (st : FinancialState) (t : EntryType)
    (l : list FinancialEntry) : FinancialState :=
  match t with
  | INCOME => mkState l (expense_entries st) (income_categories st)
                (expense_categories st)
  | EXPENSE => mkState (income_entries st) l (income_categories st)
                 (expense_categories st)
  end.

(** [set.add]: no duplicates. *)
Definition set_add (c : string) (s : list string) : list string :=
  if existsb (String.eqb c) s then s else s ++ [c].

(** Methods run on the state and may raise; the state after a raise is
    whatever had been mutated before it. *)
Definition M (A : Type) : Type := FinancialState -> result A * FinancialState.

Definition add_entry (e : FinancialEntry) : M unit := fun st =>
  let st1 :=
    match etype e with
    | INCOME => mkState (income_entries st) (expense_entries st)
                  (set_add (category e) (income_categories st))
                  (expense_categories st)
    | EXPENSE => mkState (income_entries st) (expense_entries st)
                   (income_categories st)
                   (set_add (category e) (expense_categories st))
    end in
  (Ok tt, set_entries st1 (etype e) (entries_of st1 (etype e) ++ [e])).

(** [list.remove(x)]: drops the first item equal to [x]; [None] stands
    for the [ValueError] raised when there is none. *)
Fixpoint list_remove (x : FinancialEntry) (l : list FinancialEntry)
  : option (list FinancialEntry) :=
  match l with
  | [] => None
  | y :: t =>
      if entry_eqb y x then Some t
      else match list_remove x t with
           | Some t' => Some (y :: t')
           | None => None
           end
  end.

Definition remove_entry (e : FinancialEntry) : M unit := fun st =>
  match list_remove e (entries_of st (etype e)) with
  | Some l => (Ok tt, set_entries st (etype e) l)
  | None => (Err ValueError, st)
  end.

Definition get_monthly_forecast (m : date) : M MonthlyForecast := fun st =>
  (from_financial_entries m (income_entries st) (expense_entries st), st).

(** [f"{month.year}-{month.month}"] *)
Definition z_to_string (z : Z) : string :=
  NilZero.string_of_int (Z.to_int z).

Definition month_key (d : date) : string :=
  z_to_string (year d) ++ "-" ++ z_to_string (month d).

(** The [for i in range(n)] loop, from [i] for [k] more iterations;
    [today] is the value of [date.today()]. *)
Fixpoint next_months_loop (today : date) (i : Z) (k : nat)
    (forecast : dict MonthlyForecast) : M (dict MonthlyForecast) :=
  fun st =>
  match k with
  | O => (Ok forecast, st)
  | S k' =>
      match date_replace_month today (month today + i) with
      | Err e => (Err e, st)
      | Ok m =>
          match get_monthly_forecast m st with
          | (Err e, st1) => (Err e, st1)
          | (Ok f, st1) =>
              next_months_loop today (i + 1) k'
                (dict_set (month_key m) f forecast) st1
          end
      end
  end.

Definition get_forecast_for_next_n_months (today : date) (n : Z)
  : M (dict MonthlyForecast) := fun st =>
  if negb (0 <? n) then (Err AssertionError, st)
  else next_months_loop today 0 (Z.to_nat n) [] st.

(** ** Reference notions used in the statements *)







(** ** Concrete states of the test suite *)

Definition salary : FinancialEntry :=
  mkEntry (mkDec 2000 0) "Salary" INCOME
    (mkRecurrence (mkDate 2022 1 1) MONTHLY 1 None) "Income".

Definition rent : FinancialEntry :=
  mkEntry (mkDec 800 0) "Rent" EXPENSE
    (mkRecurrence (mkDate 2022 1 5) MONTHLY 1 None) "Essentials".

(** The state of [test_financial_state__get_forecast_for_next_n_months]. *)
Definition flat_state : FinancialState :=
  snd (add_entry rent (snd (add_entry salary empty_state))).

(** A one-time income whose amount has 29 significant digits. *)
Definition big_bonus : FinancialEntry :=
  mkEntry (mkDec (10 ^ 28 + 1) 0) "Bonus" INCOME
    (mkRecurrence (mkDate 2024 1 1) ONE_TIME 1 None) "Income".




(** Balances of a forecast dictionary, in key order. *)
Definition balances (r : result (dict MonthlyForecast))
  : result (list (string * decimal)) :=
  match r with
  | Ok d => Ok (map (fun kv => (fst kv, balance (get_balance (snd kv)))) d)
  | Err e => Err e
  end.

(** ** More of FinancialState *)

Definition categories_of (st : FinancialState) (t : EntryType) : list string :=
  match t with
  | INCOME => income_categories st
  | EXPENSE => expense_categories st
  end.

Definition add_category (t : EntryType) (c : string) : M unit := fun st =>
  (Ok tt,
   match t with
   | INCOME => mkState (income_entries st) (expense_entries st)
                 (set_add c (income_categories st)) (expense_categories st)
   | EXPENSE => mkState (income_entries st) (expense_entries st)
                  (income_categories st) (set_add c (expense_categories st))
   end).

(** States reached from [FinancialState()] through the public mutators. *)
Inductive reachable : FinancialState -> Prop :=
| reach_empty : reachable empty_state
| reach_add e st : reachable st -> reachable (snd (add_entry e st))
| reach_remove e st : reachable st -> reachable (snd (remove_entry e st))
| reach_category t c st : reachable st -> reachable (snd (add_category t c st)).

(** The invariant the mutators keep: each list holds entries of its type,
    whose categories are registered for that type, and the category sets
    have no duplicates. *)
Definition state_wf (st : FinancialState) : Prop :=
  forall t,
    NoDup (categories_of st t) /\
    (forall e, In e (entries_of st t) ->
       etype e = t /\ In (category e) (categories_of st t)).


(** The [i]-th month after [today] within its year, with [today]'s day. *)
Definition month_at (today : date) (i : Z) : date :=
  mkDate (year today) (month today + i) (day today).

(** Reference for [get_forecast_for_next_n_months]: the months [i],
    [i + 1], ... of [today]'s year, each keyed and forecast in order; the
    first forecast that raises gives the error. *)
Fixpoint forecast_months (today : date) (i : Z) (k : nat) (st : FinancialState)
  : result (dict MonthlyForecast) :=
  match k with
  | O => Ok []
  | S k' =>
      f <- fst (get_monthly_forecast (month_at today i) st) ;;
      rest <- forecast_months today (i + 1) k' st ;;
      Ok ((month_key (month_at today i), f) :: rest)
  end.

(** ** FinancialEntriesScreen (personal_budget/budget_app.py) *)

(** Exceptions raised by the screen's handlers. *)
Inductive app_exc : Type :=
| IndexError
| AttributeError.

(** A table row, as the strings of its cells. *)
Definition row : Type := list string.

Record Screen : Type := mkScreen {
  sstate : FinancialState;
  expense_table : list row;
  income_table : list row
}.

(** [_sync_table_entries]: the table is cleared; an empty list gets the
    placeholder row; for an entry, building the row reads
    [entry.recurrence.description], an attribute [Recurrence] does not have,
    so the first entry raises [AttributeError].  [None] means the method
    returned. *)
Definition sync_table_entries (entries : list FinancialEntry) (table : list row)
  : option app_exc * list row :=
  match entries with
  | [] => (None, [["No entries yet"%string]])
  | _ :: _ => (Some AttributeError, [])
  end.

(** [_sync_tables]: the expense table, then the income table. *)
Definition sync_tables (s : Screen) : option app_exc * Screen :=
  match sync_table_entries (expense_entries (sstate s)) (expense_table s) with
  | (Some err, t1) => (Some err, mkScreen (sstate s) t1 (income_table s))
  | (None, t1) =>
      let (r, t2) := sync_table_entries (income_entries (sstate s)) (income_table s) in
      (r, mkScreen (sstate s) t1 t2)
  end.

(** [l[n] = x] for [0 <= n < len(l)]. *)
Fixpoint list_set {A} (l : list A) (n : nat) (x : A) : list A :=
  match l, n with
  | [], _ => []
  | _ :: t, O => x :: t
  | y :: t, S n' => y :: list_set t n' x
  end.

(** The body of [on_expense_row_selected] and, verbatim up to its titles,
    of [on_income_row_selected]: both read and write
    [self.state.expense_entries[event.cursor_row]].  [modal] is the entry
    the update modal is dismissed with, given the entry it shows. *)
Definition update_expense_row (row_index : nat)
    (modal : FinancialEntry -> option FinancialEntry) (s : Screen)
  : option app_exc * Screen :=
  match nth_error (expense_entries (sstate s)) row_index with
  | None => (Some IndexError, s)
  | Some entry =>
      match modal entry with
      | None => (None, s)
      | Some new_entry =>
          let st' := set_entries (sstate s) EXPENSE
                       (list_set (expense_entries (sstate s)) row_index new_entry) in
          sync_tables (mkScreen st' (expense_table s) (income_table s))
      end
  end.

Definition on_expense_row_selected := update_expense_row.
Definition on_income_row_selected := update_expense_row.

(** ** Radio (personal_budget/widgets.py) *)

(** [l[i]] on a Python list: negative [i] counts from the end; [None]
    stands for [IndexError]. *)
Definition py_index {A} (l : list A) (i : Z) : option A :=
  let n := Z.of_nat (List.length l) in
  if (0 <=? i) && (i <? n) then nth_error l (Z.to_nat i)
  else if (- n <=? i) && (i <? 0) then nth_error l (Z.to_nat (n + i))
  else None.

(** [Radio.__init__]: the initial [value], or the [IndexError] it raises. *)
Definition radio_init_value (options : dict string) (selected_index : option Z)
  : option app_exc * option string :=
  match selected_index with
  | None => (None, None)
  | Some i =>
      match py_index (map fst options) i with
      | Some k => (None, Some k)
      | None => (Some IndexError, None)
      end
  end.

(** [Radio.compose]: a button per option, pressed iff its position equals
    [selected_index]. *)
Definition radio_buttons (options : dict string) (selected_index : option Z)
  : list (string * bool) :=
  map (fun ik =>
         (snd (snd ik),
          match selected_index with
          | Some i => Z.eqb (Z.of_nat (fst ik)) i
          | None => false
          end))
      (combine (seq 0 (List.length options)) options).

(** * Recurrence matching *)

(** C1: a MONTHLY recurrence with [every >= 1] occurs in [md] iff
    [md.month % every == start_date.month % every]; the target's year and
    day and the recurrence's [end_date] do not change the answer. *)
Theorem monthly_will_occur_on_month (sd : date) (k : Z)
    (ed ed' : option date) (md md' : date) :
  1 <= k -> month md' = month md ->
  will_occur_on_month (mkRecurrence sd MONTHLY k ed) md
    = Ok (Z.eqb (month md mod k) (month sd mod k)) /\
  will_occur_on_month (mkRecurrence sd MONTHLY k ed') md'
    = will_occur_on_month (mkRecurrence sd MONTHLY k ed) md.
Proof.
  intros Hk Hm.
  unfold will_occur_on_month, py_mod; simpl.
  destruct (Z.eqb_spec k 0) as [Hk0 | _]; [lia |].
  simpl; rewrite Hm; split; reflexivity.
Qed.

(** Every two months from February 2024: April 2020, before the start, and
    April 2031 with another end date both match. *)
Lemma monthly_will_occur_on_month_witness :
  (1 <= 2 /\ month (mkDate 2031 4 30) = month (mkDate 2020 4 1)) /\
  (will_occur_on_month
     (mkRecurrence (mkDate 2024 2 1) MONTHLY 2 (Some (mkDate 2024 6 1)))
     (mkDate 2020 4 1)
   = Ok (Z.eqb (month (mkDate 2020 4 1) mod 2) (month (mkDate 2024 2 1) mod 2)) /\
   will_occur_on_month (mkRecurrence (mkDate 2024 2 1) MONTHLY 2 None)
     (mkDate 2031 4 30)
   = will_occur_on_month
       (mkRecurrence (mkDate 2024 2 1) MONTHLY 2 (Some (mkDate 2024 6 1)))
       (mkDate 2020 4 1)).
Proof.
  split.
  - split; [lia | reflexivity].
  - apply (monthly_will_occur_on_month (mkDate 2024 2 1) 2
             (Some (mkDate 2024 6 1)) None (mkDate 2020 4 1) (mkDate 2031 4 30));
      [lia | reflexivity].
Defined.

(** C4: a ONE_TIME recurrence never raises, and occurs in [md] iff
    [md] has the start date's year and month. *)
Theorem one_time_occurs_once (sd : date) (k : Z) (ed : option date) (md : date) :
  (exists b, will_occur_on_month (mkRecurrence sd ONE_TIME k ed) md = Ok b) /\
  (will_occur_on_month (mkRecurrence sd ONE_TIME k ed) md = Ok true <->
   (year md, month md) = (year sd, month sd)).
Proof.
  unfold will_occur_on_month; simpl.
  split; [eexists; reflexivity |].
  destruct (Z.eqb_spec (month sd) (month md)) as [Hm | Hm];
  destruct (Z.eqb_spec (year sd) (year md)) as [Hy | Hy]; simpl;
  split; intro H; try congruence; inversion H; congruence.
Qed.

(** C5: an ANNUAL recurrence never raises, and occurs in [md] iff [md] has
    the start date's month, whatever its year. *)
Theorem annual_occurs_on_start_month (sd : date) (k : Z) (ed : option date)
    (md : date) :
  (exists b, will_occur_on_month (mkRecurrence sd ANNUAL k ed) md = Ok b) /\
  (will_occur_on_month (mkRecurrence sd ANNUAL k ed) md = Ok true <->
   month md = month sd).
Proof.
  unfold will_occur_on_month; simpl.
  split; [eexists; reflexivity |].
  destruct (Z.eqb_spec (month sd) (month md)) as [Hm | Hm];
  split; intro H; try congruence; inversion H.
Qed.

(** C6 (as stated, refuted): [every] is a plain [int] that nothing checks,
    so a MONTHLY recurrence with [every = 0] can be built, and matching it
    raises [ZeroDivisionError]. *)
Lemma every_zero_raises :
  ~ (forall (r : Recurrence) (md : date),
       exists b, will_occur_on_month r md = Ok b).
Proof.
  intro H.
  destruct (H (mkRecurrence (mkDate 2024 1 1) MONTHLY 0 None) (mkDate 2024 1 1))
    as [b Hb].
  vm_compute in Hb; discriminate Hb.
Qed.

(** C6 (amended): the invalid-type [ValueError] is never raised; matching
    raises exactly for a MONTHLY recurrence with [every = 0], with
    [ZeroDivisionError], and returns a boolean otherwise (negative [every]
    included); for a MONTHLY recurrence with [every <> 0] that boolean
    compares the two months under Python's floor modulo ([Z.modulo], whose
    result has the sign of the divisor, e.g. [5 mod -3 = -1]). *)
Theorem will_occur_on_month_total (r : Recurrence) (md : date) :
  will_occur_on_month r md <> Err ValueError /\
  (will_occur_on_month r md = Err ZeroDivisionError <->
   rtype r = MONTHLY /\ every r = 0) /\
  (rtype r <> MONTHLY \/ every r <> 0 ->
   exists b, will_occur_on_month r md = Ok b) /\
  (rtype r = MONTHLY -> every r <> 0 ->
   will_occur_on_month r md
     = Ok (Z.eqb (month md mod every r) (month (start_date r) mod every r))).
Proof.
  destruct r as [sd t k ed].
  unfold will_occur_on_month, py_mod; simpl.
  destruct t; simpl.
  - repeat split; try discriminate; try (intros [H _]; discriminate).
    intros _; eexists; reflexivity.
  - destruct (Z.eqb_spec k 0) as [Hk | Hk]; simpl.
    + repeat split; try discriminate; auto.
      * intros [H | H]; congruence.
      * intros _ H; congruence.
    + repeat split; try discriminate.
      * intros [_ H]; congruence.
      * intros _; eexists; reflexivity.
  - repeat split; try discriminate; try (intros [H _]; discriminate).
    intros _; eexists; reflexivity.
Qed.

(** * Dictionaries *)

Section Dict.
Context {V : Type}.





End Dict.

(** * MonthlyForecast.from_financial_entries *)














(** * MonthlyForecast.get_balance *)

(** C7: the balance is [total_income - total_expenses], the totals being
    the sums of the values of the two mappings. *)
Theorem get_balance_additive (f : MonthlyForecast) :
  total_income (get_balance f) = py_sum (dict_values (income_by_category f)) /\
  total_expenses (get_balance f) = py_sum (dict_values (expenses_by_category f)) /\
  balance (get_balance f)
    = dsub (total_income (get_balance f)) (total_expenses (get_balance f)).
Proof. repeat split. Qed.

(** * FinancialState *)

(** C8: two calls of [get_monthly_forecast m] in a row return the same
    forecast and leave the state as it was. *)
Theorem get_monthly_forecast_idempotent (st : FinancialState) (m : date) :
  let (r1, st1) := get_monthly_forecast m st in
  let (r2, st2) := get_monthly_forecast m st1 in
  r1 = r2 /\ st1 = st /\ st2 = st.
Proof. simpl; auto. Qed.

(** C9: a non-positive month count fails the assertion, whatever the
    current date, before any forecast is computed. *)
Theorem next_n_months_nonpositive (today : date) (n : Z) (st : FinancialState) :
  n <= 0 -> get_forecast_for_next_n_months today n st = (Err AssertionError, st).
Proof.
  intros Hn; unfold get_forecast_for_next_n_months.
  destruct (Z.ltb_spec 0 n) as [H | H]; [lia | reflexivity].
Qed.

Lemma next_n_months_nonpositive_witness :
  0 <= 0 /\
  get_forecast_for_next_n_months (mkDate 2024 1 15) 0 flat_state
    = (Err AssertionError, flat_state).
Proof. split; [lia | apply next_n_months_nonpositive; lia]. Defined.

(** From mid-January the six months stay within the year and the test's
    expectation holds. *)
Lemma next_n_months_from_january :
  balances (fst (get_forecast_for_next_n_months (mkDate 2024 1 15) 6 flat_state))
  = Ok [("2024-1", mkDec 1200 0); ("2024-2", mkDec 1200 0);
        ("2024-3", mkDec 1200 0); ("2024-4", mkDec 1200 0);
        ("2024-5", mkDec 1200 0); ("2024-6", mkDec 1200 0)]%string.
Proof. vm_compute; reflexivity. Qed.

(** C2 (code defect): [today.replace(month=today.month + i)] does not roll
    over: from August the sixth month is month 13 and raises [ValueError];
    from December already the second does; from January 31 the second month
    has no day 31. *)
Theorem next_n_months_no_rollover :
  get_forecast_for_next_n_months (mkDate 2024 8 1) 6 flat_state
    = (Err ValueError, flat_state) /\
  get_forecast_for_next_n_months (mkDate 2024 12 1) 2 flat_state
    = (Err ValueError, flat_state) /\
  get_forecast_for_next_n_months (mkDate 2024 1 31) 2 flat_state
    = (Err ValueError, flat_state).
Proof. repeat split; vm_compute; reflexivity. Qed.

(** * FinancialState.remove_entry *)

Lemma list_remove_absent (x : FinancialEntry) (l : list FinancialEntry) :
  Forall (fun y => entry_eqb y x = false) l -> list_remove x l = None.
Proof.
  induction 1 as [| y t Hy _ IH]; simpl; [reflexivity |].
  rewrite Hy, IH; reflexivity.
Qed.

Lemma list_remove_first (x : FinancialEntry) (pre post : list FinancialEntry)
    (y : FinancialEntry) :
  Forall (fun z => entry_eqb z x = false) pre -> entry_eqb y x = true ->
  list_remove x (pre ++ y :: post) = Some (pre ++ post).
Proof.
  intros Hpre Hy; induction Hpre as [| z t Hz _ IH]; simpl.
  - rewrite Hy; reflexivity.
  - rewrite Hz, IH; reflexivity.
Qed.

(** C10: without an equal entry in the list of its type, [remove_entry e]
    raises [ValueError] and leaves the state as it was; otherwise it drops
    the first equal entry only, and the other list and both category sets
    are unchanged. *)
Theorem remove_entry_first_occurrence (st : FinancialState) (e : FinancialEntry) :
  (Forall (fun y => entry_eqb y e = false) (entries_of st (etype e)) ->
   remove_entry e st = (Err ValueError, st)) /\
  (forall pre x post,
     entries_of st (etype e) = pre ++ x :: post ->
     Forall (fun y => entry_eqb y e = false) pre ->
     entry_eqb x e = true ->
     exists st',
       remove_entry e st = (Ok tt, st') /\
       entries_of st' (etype e) = pre ++ post /\
       (forall t, t <> etype e -> entries_of st' t = entries_of st t) /\
       income_categories st' = income_categories st /\
       expense_categories st' = expense_categories st).
Proof.
  unfold remove_entry; split.
  - intros H; rewrite list_remove_absent by exact H; reflexivity.
  - intros pre x post Hl Hpre Hx.
    rewrite Hl, list_remove_first by assumption.
    eexists; split; [reflexivity |].
    destruct st as [ie ee ic ec]; destruct (etype e); simpl.
    + split; [reflexivity |]; split; [| split; reflexivity].
      intros [] Ht; [congruence | reflexivity].
    + split; [reflexivity |]; split; [| split; reflexivity].
      intros [] Ht; [reflexivity | congruence].
Qed.

(** * Further properties of the code *)

(** ** Recurrence *)

(** A MONTHLY recurrence with [every = 1] occurs in every month. *)
Theorem monthly_every_one_always (sd : date) (ed : option date) (md : date) :
  will_occur_on_month (mkRecurrence sd MONTHLY 1 ed) md = Ok true.
Proof.
  unfold will_occur_on_month, py_mod; simpl.
  rewrite !Z.mod_1_r; reflexivity.
Qed.

(** For month numbers 1..12, a MONTHLY recurrence with [every >= 12]
    matches exactly as an ANNUAL one does. *)
Theorem monthly_every_ge_12_is_annual (sd : date) (k : Z) (ed : option date)
    (md : date) :
  12 <= k -> 1 <= month md <= 12 -> 1 <= month sd <= 12 ->
  will_occur_on_month (mkRecurrence sd MONTHLY k ed) md
    = will_occur_on_month (mkRecurrence sd ANNUAL k ed) md.
Proof.
  intros Hk Hm Hs.
  unfold will_occur_on_month, py_mod; simpl.
  destruct (Z.eqb_spec k 0) as [H0 | _]; [lia |]; simpl.
  f_equal.
  destruct (Z.eqb_spec (month sd) (month md)) as [-> | Hne];
    [apply Z.eqb_refl | apply Z.eqb_neq; intros Heq].
  pose proof (Z.div_mod (month md) k) as Dm.
  pose proof (Z.div_mod (month sd) k) as Ds.
  pose proof (Z.mod_pos_bound (month md) k) as Bm.
  pose proof (Z.mod_pos_bound (month sd) k) as Bs.
  assert (Qm : month md / k = 0 \/ month md / k = 1)
    by (assert (0 <= month md / k <= 1)
          by (split; [apply Z.div_pos | apply Z.div_le_upper_bound]; lia); lia).
  assert (Qs : month sd / k = 0 \/ month sd / k = 1)
    by (assert (0 <= month sd / k <= 1)
          by (split; [apply Z.div_pos | apply Z.div_le_upper_bound]; lia); lia).
  destruct Qm as [Qm | Qm]; destruct Qs as [Qs | Qs];
    rewrite Qm in Dm; rewrite Qs in Ds; lia.
Qed.

Lemma monthly_every_ge_12_is_annual_witness :
  (12 <= 15 /\ 1 <= month (mkDate 2025 3 1) <= 12 /\
   1 <= month (mkDate 2024 3 9) <= 12) /\
  will_occur_on_month (mkRecurrence (mkDate 2024 3 9) MONTHLY 15 None) (mkDate 2025 3 1)
    = will_occur_on_month (mkRecurrence (mkDate 2024 3 9) ANNUAL 15 None)
        (mkDate 2025 3 1).
Proof.
  split; [simpl; lia |].
  apply monthly_every_ge_12_is_annual; simpl; lia.
Defined.

(** ** Adding, removing and categories *)

Lemma set_add_in (c x : string) (s : list string) :
  In x (set_add c s) <-> x = c \/ In x s.
Proof.
  unfold set_add.
  destruct (existsb (String.eqb c) s) eqn:He.
  - apply existsb_exists in He as [y [Hy Hcy]].
    apply String.eqb_eq in Hcy; subst y.
    split; [intros H; right; exact H | intros [-> | H]; assumption].
  - rewrite in_app_iff; simpl; split; intros [H | H]; try tauto.
    + destruct H as [H | []]; left; symmetry; exact H.
    + right; left; symmetry; exact H.
Qed.

Lemma set_add_nodup (c : string) (s : list string) :
  NoDup s -> NoDup (set_add c s).
Proof.
  unfold set_add; intros Hs.
  destruct (existsb (String.eqb c) s) eqn:He; [exact Hs |].
  apply NoDup_app; [exact Hs | constructor; [intros [] | constructor] |].
  intros x Hx [-> | []].
  assert (existsb (String.eqb x) s = true)
    by (apply existsb_exists; exists x; split; [exact Hx | apply String.eqb_refl]).
  congruence.
Qed.

Lemma add_entry_effect (e : FinancialEntry) (st : FinancialState) :
  fst (add_entry e st) = Ok tt /\
  entries_of (snd (add_entry e st)) (etype e) = entries_of st (etype e) ++ [e] /\
  (forall t, t <> etype e -> entries_of (snd (add_entry e st)) t = entries_of st t) /\
  categories_of (snd (add_entry e st)) (etype e)
    = set_add (category e) (categories_of st (etype e)) /\
  (forall t, t <> etype e -> categories_of (snd (add_entry e st)) t = categories_of st t).
Proof.
  destruct st as [ie ee ic ec]; destruct e as [a d [] r c]; simpl;
    (split; [reflexivity |]; split; [reflexivity |]; split;
     [| split; [reflexivity |]]; intros [] H; simpl; congruence).
Qed.

(** [add_entry e] appends [e] to the list of its type, registers its
    category in that type's set, and changes nothing else. *)
Theorem add_entry_appends (e : FinancialEntry) (st : FinancialState) :
  fst (add_entry e st) = Ok tt /\
  entries_of (snd (add_entry e st)) (etype e) = entries_of st (etype e) ++ [e] /\
  (forall t, t <> etype e -> entries_of (snd (add_entry e st)) t = entries_of st t) /\
  In (category e) (categories_of (snd (add_entry e st)) (etype e)) /\
  (forall c, In c (categories_of st (etype e)) ->
     In c (categories_of (snd (add_entry e st)) (etype e))) /\
  (forall t, t <> etype e -> categories_of (snd (add_entry e st)) t = categories_of st t).
Proof.
  destruct (add_entry_effect e st) as [H1 [H2 [H3 [H4 H5]]]].
  repeat split; try assumption.
  - rewrite H4, set_add_in; left; reflexivity.
  - intros c Hc; rewrite H4, set_add_in; right; exact Hc.
Qed.

Lemma list_remove_incl (x : FinancialEntry) (l l' : list FinancialEntry) :
  list_remove x l = Some l' -> incl l' l.
Proof.
  revert l'; induction l as [| y t IH]; simpl; intros l' H; [discriminate |].
  destruct (entry_eqb y x).
  - inversion H; subst; intros z Hz; right; exact Hz.
  - destruct (list_remove x t) as [t' |] eqn:Ht; [| discriminate].
    inversion H; subst; intros z [<- | Hz]; [left; reflexivity |].
    right; apply (IH t'); auto.
Qed.

Lemma remove_entry_effect (e : FinancialEntry) (st : FinancialState) :
  (forall t, incl (entries_of (snd (remove_entry e st)) t) (entries_of st t)) /\
  (forall t, categories_of (snd (remove_entry e st)) t = categories_of st t).
Proof.
  unfold remove_entry.
  destruct (list_remove e (entries_of st (etype e))) as [l |] eqn:Hl;
    [| split; intros t; [apply incl_refl | reflexivity]].
  apply list_remove_incl in Hl.
  destruct st as [ie ee ic ec]; destruct (etype e); simpl in *;
    split; intros []; simpl; auto using incl_refl.
Qed.

(** Every state reached from [FinancialState()] by [add_entry],
    [remove_entry] and [add_category] keeps each entry in the list of its
    type, has each entry's category registered for its type, and has
    category sets without duplicates. *)
Theorem reachable_state_wf (st : FinancialState) :
  reachable st -> state_wf st.
Proof.
  induction 1 as [| e st _ IH | e st _ IH | t c st _ IH].
  - unfold state_wf; intros t; destruct t; simpl; (split; [apply NoDup_nil | intros e []]).
  - destruct (add_entry_effect e st) as [_ [He [Ho [Hc Hco]]]].
    intros t; destruct (IH t) as [Hnd Hin].
    destruct (EntryType_eqb t (etype e)) eqn:Ht.
    + assert (t = etype e) by (destruct t, (etype e); simpl in Ht; congruence).
      subst t; rewrite He, Hc; split; [apply set_add_nodup; exact Hnd |].
      intros x Hx; apply in_app_iff in Hx as [Hx | [<- | []]].
      * destruct (Hin x Hx) as [Htx Hcx]; split; [exact Htx |].
        apply set_add_in; right; exact Hcx.
      * split; [reflexivity | apply set_add_in; left; reflexivity].
    + assert (t <> etype e) by (intros ->; destruct (etype e); discriminate).
      rewrite Ho, Hco by assumption; split; assumption.
  - destruct (remove_entry_effect e st) as [Hi Hc].
    intros t; destruct (IH t) as [Hnd Hin]; rewrite Hc.
    split; [exact Hnd | intros x Hx; apply Hin, (Hi t), Hx].
  - intros t'; destruct (IH t') as [Hnd Hin].
    destruct st as [ie ee ic ec]; destruct t, t'; simpl in *;
      (split; [try apply set_add_nodup; exact Hnd |]);
      intros x Hx; destruct (Hin x Hx) as [Htx Hcx]; split; auto;
      apply set_add_in; right; exact Hcx.
Qed.

Lemma reachable_state_wf_witness :
  reachable flat_state /\ state_wf flat_state.
Proof.
  assert (H : reachable flat_state)
    by (unfold flat_state; repeat constructor).
  split; [exact H | apply reachable_state_wf; exact H].
Defined.

Lemma entry_eqb_refl (e : FinancialEntry) : entry_eqb e e = true.
Proof.
  destruct e as [[c x] d t [[y m dd] rt k ed] cat].
  unfold entry_eqb, deqb, recurrence_eqb, date_eqb; simpl.
  rewrite !Z.eqb_refl, !String.eqb_refl.
  destruct t, rt; simpl; try reflexivity;
    destruct ed as [[y' m' d'] |]; simpl; unfold date_eqb; simpl; rewrite ?Z.eqb_refl; reflexivity.
Qed.

(** When no entry equal to [e] is in the list of its type, removing [e]
    right after adding it gives back both entry lists; the category [e]
    registered stays. *)
Theorem add_then_remove_entry (e : FinancialEntry) (st : FinancialState) :
  Forall (fun y => entry_eqb y e = false) (entries_of st (etype e)) ->
  fst (remove_entry e (snd (add_entry e st))) = Ok tt /\
  (forall t, entries_of (snd (remove_entry e (snd (add_entry e st)))) t
             = entries_of st t) /\
  (forall t, categories_of (snd (remove_entry e (snd (add_entry e st)))) t
             = categories_of (snd (add_entry e st)) t).
Proof.
  intros Hnone.
  destruct (add_entry_effect e st) as [_ [He [Ho _]]].
  destruct (remove_entry_first_occurrence (snd (add_entry e st)) e) as [_ Hrm].
  destruct (Hrm (entries_of st (etype e)) e [] He Hnone (entry_eqb_refl e))
    as [st' [Hr [He' [Ho' [Hic Hec]]]]].
  rewrite Hr; simpl; rewrite app_nil_r in He'.
  split; [reflexivity |]; split.
  - intros t; destruct (EntryType_eqb t (etype e)) eqn:Ht.
    + assert (t = etype e) by (destruct t, (etype e); simpl in Ht; congruence).
      subst t; exact He'.
    + assert (t <> etype e) by (intros ->; destruct (etype e); discriminate).
      rewrite Ho', Ho by assumption; reflexivity.
  - intros []; simpl; assumption.
Qed.

Lemma add_then_remove_entry_witness :
  Forall (fun y => entry_eqb y big_bonus = false)
    (entries_of flat_state (etype big_bonus)) /\
  fst (remove_entry big_bonus (snd (add_entry big_bonus flat_state))) = Ok tt /\
  (forall t, entries_of (snd (remove_entry big_bonus
                                (snd (add_entry big_bonus flat_state)))) t
             = entries_of flat_state t) /\
  (forall t, categories_of (snd (remove_entry big_bonus
                                   (snd (add_entry big_bonus flat_state)))) t
             = categories_of (snd (add_entry big_bonus flat_state)) t).
Proof.
  assert (H : Forall (fun y => entry_eqb y big_bonus = false)
                (entries_of flat_state (etype big_bonus)))
    by (vm_compute; repeat constructor).
  split; [exact H | apply add_then_remove_entry; exact H].
Defined.

(** ** Forecasts after a change, and the day of the month *)




Lemma build_loop_day (y mo d d' : Z) (l : list FinancialEntry) (acc : dict decimal) :
  build_loop (mkDate y mo d) l acc = build_loop (mkDate y mo d') l acc.
Proof.
  revert acc; induction l as [| e t IH]; intros acc; simpl; [reflexivity |].
  replace (entry_will_occur_on_month e (mkDate y mo d))
    with (entry_will_occur_on_month e (mkDate y mo d')) by reflexivity.
  destruct (entry_will_occur_on_month e (mkDate y mo d')) as [[] | err]; simpl; auto.
Qed.

(** The forecast of a month depends on the year and month of the date it
    is asked for, not on its day: only the [month] field differs. *)
Theorem get_monthly_forecast_ignores_day (st : FinancialState) (y mo d d' : Z) :
  fst (get_monthly_forecast (mkDate y mo d) st)
    = rbind (fst (get_monthly_forecast (mkDate y mo d') st))
        (fun f => Ok (mkForecast (mkDate y mo d) (expenses_by_category f)
                        (income_by_category f))).
Proof.
  unfold get_monthly_forecast, from_financial_entries,
    build_forecast_by_category_for_month; simpl.
  rewrite !(build_loop_day y mo d d').
  destruct (build_loop (mkDate y mo d') (expense_entries st) []); simpl; [| reflexivity].
  destruct (build_loop (mkDate y mo d') (income_entries st) []); reflexivity.
Qed.

(** ** FinancialState.get_forecast_for_next_n_months *)

Lemma z_to_string_month_inj (a b : Z) :
  1 <= a <= 12 -> 1 <= b <= 12 -> z_to_string a = z_to_string b -> a = b.
Proof.
  intros Ha Hb H.
  assert (Ea : a = 1 \/ a = 2 \/ a = 3 \/ a = 4 \/ a = 5 \/ a = 6 \/ a = 7 \/
               a = 8 \/ a = 9 \/ a = 10 \/ a = 11 \/ a = 12) by lia.
  assert (Eb : b = 1 \/ b = 2 \/ b = 3 \/ b = 4 \/ b = 5 \/ b = 6 \/ b = 7 \/
               b = 8 \/ b = 9 \/ b = 10 \/ b = 11 \/ b = 12) by lia.
  repeat destruct Ea as [-> | Ea]; repeat destruct Eb as [-> | Eb];
    subst; try reflexivity; vm_compute in H; discriminate H.
Qed.

Lemma string_app_cancel_l (s t1 t2 : string) :
  (s ++ t1)%string = (s ++ t2)%string -> t1 = t2.
Proof.
  induction s as [| ch s IH]; simpl; intros H; [exact H |].
  injection H; exact IH.
Qed.

Lemma month_key_month_at_inj (today : date) (i j : Z) :
  1 <= month today + i <= 12 -> 1 <= month today + j <= 12 ->
  month_key (month_at today i) = month_key (month_at today j) -> i = j.
Proof.
  unfold month_key, month_at; simpl; intros Hi Hj H.
  apply string_app_cancel_l in H; simpl in H; injection H as H.
  apply z_to_string_month_inj in H; lia.
Qed.

Lemma dict_set_fresh {V} (k : string) (v : V) (d : dict V) :
  ~ In k (map fst d) -> dict_set k v d = d ++ [(k, v)].
Proof.
  induction d as [| [k' v'] t IH]; simpl; intros Hn; [reflexivity |].
  destruct (String.eqb_spec k k') as [-> | _]; [tauto |].
  rewrite IH by tauto; reflexivity.
Qed.

Lemma date_replace_month_in_year (today : date) (i : Z) :
  1 <= month today + i <= 12 ->
  1 <= day today <= days_in_month (year today) (month today + i) ->
  date_replace_month today (month today + i) = Ok (month_at today i).
Proof.
  intros Hm Hd; unfold date_replace_month.
  replace ((1 <=? month today + i) && (month today + i <=? 12)) with true
    by (symmetry; apply andb_true_iff; split; apply Z.leb_le; lia).
  replace ((1 <=? day today) && (day today <=? days_in_month (year today) (month today + i)))
    with true by (symmetry; apply andb_true_iff; split; apply Z.leb_le; lia).
  reflexivity.
Qed.

Lemma next_months_loop_in_year (today : date) (st : FinancialState) (k : nat) :
  forall (i : Z) (acc : dict MonthlyForecast),
  1 <= month today -> 0 <= i -> month today + i + Z.of_nat k <= 13 ->
  (forall j, i <= j < i + Z.of_nat k ->
     1 <= day today <= days_in_month (year today) (month today + j)) ->
  (forall key, In key (map fst acc) ->
     exists j, 0 <= j < i /\ key = month_key (month_at today j)) ->
  next_months_loop today i k acc st
    = (rbind (forecast_months today i k st) (fun l => Ok (acc ++ l)), st).
Proof.
  induction k as [| k IH]; intros i acc H1 Hi Hk Hd Hacc; simpl.
  - rewrite app_nil_r; reflexivity.
  - rewrite date_replace_month_in_year by (try apply Hd; lia).
    destruct (from_financial_entries (month_at today i) (income_entries st)
                (expense_entries st)) as [f | err] eqn:Hf; simpl; [| reflexivity].
    rewrite dict_set_fresh.
    + rewrite IH; try lia.
      * destruct (forecast_months today (i + 1) k st); simpl; [| reflexivity].
        rewrite <- app_assoc; reflexivity.
      * intros j Hj; apply Hd; lia.
      * intros key Hkey; rewrite map_app, in_app_iff in Hkey.
        destruct Hkey as [Hkey | [<- | []]].
        -- destruct (Hacc key Hkey) as [j [Hj ->]]; exists j; split; [lia | reflexivity].
        -- exists i; split; [lia | reflexivity].
    + intros Hin; destruct (Hacc _ Hin) as [j [Hj Heq]].
      apply month_key_month_at_inj in Heq; lia.
Qed.

(** When the [n] months from the current one stay within its year and the
    current day exists in each of them, [get_forecast_for_next_n_months n]
    returns, in order, one entry per month keyed ["YYYY-M"], holding that
    month's forecast (or raises as the first forecast that raises), and
    leaves the state unchanged. *)
Theorem next_n_months_within_year (today : date) (n : Z) (st : FinancialState) :
  1 <= month today -> 0 < n -> month today + n <= 13 ->
  (forall j, 0 <= j < n ->
     1 <= day today <= days_in_month (year today) (month today + j)) ->
  get_forecast_for_next_n_months today n st
    = (forecast_months today 0 (Z.to_nat n) st, st).
Proof.
  intros H1 Hn Hk Hd; unfold get_forecast_for_next_n_months.
  destruct (Z.ltb_spec 0 n) as [_ | H]; [simpl | lia].
  rewrite next_months_loop_in_year; try lia.
  - destruct (forecast_months today 0 (Z.to_nat n) st); reflexivity.
  - intros j Hj; apply Hd; lia.
  - intros key [].
Qed.

Lemma next_n_months_within_year_witness :
  (1 <= month (mkDate 2024 1 15) /\ 0 < 6 /\ month (mkDate 2024 1 15) + 6 <= 13 /\
   (forall j, 0 <= j < 6 ->
      1 <= day (mkDate 2024 1 15)
        <= days_in_month (year (mkDate 2024 1 15)) (month (mkDate 2024 1 15) + j))) /\
  get_forecast_for_next_n_months (mkDate 2024 1 15) 6 flat_state
    = (forecast_months (mkDate 2024 1 15) 0 (Z.to_nat 6) flat_state, flat_state).
Proof.
  assert (Hd : forall j, 0 <= j < 6 ->
      1 <= day (mkDate 2024 1 15)
        <= days_in_month (year (mkDate 2024 1 15)) (month (mkDate 2024 1 15) + j)).
  { intros j Hj; simpl.
    assert (j = 0 \/ j = 1 \/ j = 2 \/ j = 3 \/ j = 4 \/ j = 5) as E by lia.
    repeat destruct E as [-> | E]; subst; vm_compute; split; discriminate. }
  split; [split; [simpl; lia | split; [lia | split; [simpl; lia | exact Hd]]] |].
  apply next_n_months_within_year; [simpl; lia | lia | simpl; lia | exact Hd].
Defined.

Lemma next_months_loop_past_year (today : date) (st : FinancialState) (k : nat) :
  forall (i : Z) (acc : dict MonthlyForecast),
  i <= 13 - month today < i + Z.of_nat k ->
  exists err, fst (next_months_loop today i k acc st) = Err err.
Proof.
  induction k as [| k IH]; intros i acc H; simpl; [lia |].
  unfold date_replace_month.
  destruct ((1 <=? month today + i) && (month today + i <=? 12)) eqn:Hm;
    [| eexists; reflexivity].
  apply andb_true_iff in Hm as [_ Hm]; apply Z.leb_le in Hm.
  destruct ((1 <=? day today) && (day today <=? days_in_month (year today) (month today + i)));
    [| eexists; reflexivity].
  destruct (from_financial_entries (mkDate (year today) (month today + i) (day today))
              (income_entries st) (expense_entries st)); [| eexists; reflexivity].
  apply IH; lia.
Qed.

(** When the [n] months from the current one run past December,
    [get_forecast_for_next_n_months n] never returns a mapping: it raises. *)
Theorem next_n_months_past_december (today : date) (n : Z) (st : FinancialState) :
  1 <= month today <= 12 -> 13 - month today < n ->
  exists err, fst (get_forecast_for_next_n_months today n st) = Err err.
Proof.
  intros Hm Hn; unfold get_forecast_for_next_n_months.
  destruct (Z.ltb_spec 0 n) as [_ | H]; [simpl | lia].
  apply next_months_loop_past_year; lia.
Qed.

Lemma next_n_months_past_december_witness :
  (1 <= month (mkDate 2024 8 1) <= 12 /\ 13 - month (mkDate 2024 8 1) < 6) /\
  exists err, fst (get_forecast_for_next_n_months (mkDate 2024 8 1) 6 flat_state) = Err err.
Proof.
  split; [simpl; lia | apply next_n_months_past_december; simpl; lia].
Defined.

(** ** FinancialEntriesScreen *)

(** [_sync_tables] shows the placeholder row in both tables when there are
    no entries at all; as soon as either list has an entry it raises
    [AttributeError] (a [Recurrence] has no [description]), without
    touching the state. *)
Theorem sync_tables_outcome (s : Screen) :
  (expense_entries (sstate s) = [] -> income_entries (sstate s) = [] ->
   sync_tables s
     = (None, mkScreen (sstate s) [["No entries yet"%string]]
                [["No entries yet"%string]])) /\
  (expense_entries (sstate s) <> [] \/ income_entries (sstate s) <> [] ->
   fst (sync_tables s) = Some AttributeError /\
   sstate (snd (sync_tables s)) = sstate s).
Proof.
  unfold sync_tables, sync_table_entries.
  split.
  - intros He Hi; rewrite He, Hi; reflexivity.
  - intros H.
    destruct (expense_entries (sstate s)) as [| x t]; simpl.
    + destruct H as [H | H]; [congruence |].
      destruct (income_entries (sstate s)); [congruence | split; reflexivity].
    + split; reflexivity.
Qed.

Lemma nth_error_list_set {A} (l : list A) (n : nat) (x : A) :
  (n < List.length l)%nat -> nth_error (list_set l n x) n = Some x.
Proof.
  revert n; induction l as [| y t IH]; intros n Hn; simpl in *; [lia |].
  destruct n; simpl; [reflexivity | apply IH; lia].
Qed.

Lemma list_set_length {A} (l : list A) (n : nat) (x : A) :
  List.length (list_set l n x) = List.length l.
Proof.
  revert n; induction l as [| y t IH]; intros n; simpl; [reflexivity |].
  destruct n; simpl; [reflexivity | rewrite IH; reflexivity].
Qed.

(** Editing expense row [row]: an out-of-range row raises [IndexError]; a
    cancelled modal changes nothing; a saved entry replaces the expense at
    [row], leaves the income entries and both category sets as they were
    (the new entry's category is not registered), and the refresh that
    follows raises [AttributeError]. *)
Theorem on_expense_row_selected_effect (row_index : nat)
    (modal : FinancialEntry -> option FinancialEntry) (s : Screen) :
  ((List.length (expense_entries (sstate s)) <= row_index)%nat ->
   on_expense_row_selected row_index modal s = (Some IndexError, s)) /\
  (forall entry, nth_error (expense_entries (sstate s)) row_index = Some entry ->
   modal entry = None -> on_expense_row_selected row_index modal s = (None, s)) /\
  (forall entry new_entry,
   nth_error (expense_entries (sstate s)) row_index = Some entry ->
   modal entry = Some new_entry ->
   fst (on_expense_row_selected row_index modal s) = Some AttributeError /\
   expense_entries (sstate (snd (on_expense_row_selected row_index modal s)))
     = list_set (expense_entries (sstate s)) row_index new_entry /\
   nth_error (expense_entries (sstate (snd (on_expense_row_selected row_index modal s))))
     row_index = Some new_entry /\
   income_entries (sstate (snd (on_expense_row_selected row_index modal s)))
     = income_entries (sstate s) /\
   income_categories (sstate (snd (on_expense_row_selected row_index modal s)))
     = income_categories (sstate s) /\
   expense_categories (sstate (snd (on_expense_row_selected row_index modal s)))
     = expense_categories (sstate s)).
Proof.
  unfold on_expense_row_selected, update_expense_row.
  split; [| split].
  - intros H; apply nth_error_None in H; rewrite H; reflexivity.
  - intros entry He Hm; rewrite He, Hm; reflexivity.
  - intros entry new_entry He Hm; rewrite He, Hm.
    assert (Hlt : (row_index < List.length (expense_entries (sstate s)))%nat)
      by (apply nth_error_Some; congruence).
    destruct s as [[ie ee ic ec] et it]; simpl in *.
    unfold sync_tables, sync_table_entries; simpl.
    destruct (list_set ee row_index new_entry) as [| y t] eqn:Hl.
    + destruct ee; simpl in Hlt; [lia | destruct row_index; discriminate Hl].
    + rewrite <- Hl; simpl.
      repeat split; try reflexivity.
      apply nth_error_list_set; exact Hlt.
Qed.

(** Selecting an income row runs the expense-row code: it looks up and
    overwrites [expense_entries[row]], so it never changes the income
    entries and raises [IndexError] once [row] is past the expense list,
    whatever the income list holds. *)
Theorem on_income_row_selected_edits_expenses (row_index : nat)
    (modal : FinancialEntry -> option FinancialEntry) (s : Screen) :
  on_income_row_selected row_index modal s = on_expense_row_selected row_index modal s /\
  income_entries (sstate (snd (on_income_row_selected row_index modal s)))
    = income_entries (sstate s) /\
  ((List.length (expense_entries (sstate s)) <= row_index)%nat ->
   on_income_row_selected row_index modal s = (Some IndexError, s)).
Proof.
  split; [reflexivity |].
  destruct (on_expense_row_selected_effect row_index modal s) as [Hout [Hnone Hsome]].
  split; [| exact Hout].
  change (on_income_row_selected row_index modal s)
    with (on_expense_row_selected row_index modal s).
  destruct (nth_error (expense_entries (sstate s)) row_index) as [entry |] eqn:He.
  - destruct (modal entry) as [new_entry |] eqn:Hm.
    + destruct (Hsome entry new_entry eq_refl Hm) as (_ & _ & _ & Hi & _); exact Hi.
    + rewrite (Hnone entry eq_refl Hm); reflexivity.
  - apply nth_error_None in He; rewrite (Hout He); reflexivity.
Qed.

(** ** Radio *)

Lemma nth_error_radio_buttons (options : dict string) (sel : option Z) (j : nat) :
  nth_error (radio_buttons options sel) j
    = option_map (fun kl => (snd kl, match sel with
                                     | Some i => Z.eqb (Z.of_nat j) i
                                     | None => false
                                     end))
        (nth_error options j).
Proof.
  unfold radio_buttons; rewrite nth_error_map.
  assert (H : forall s, nth_error (combine (seq s (List.length options)) options) j
                        = option_map (fun x => ((s + j)%nat, x)) (nth_error options j)).
  { clear sel; revert j; induction options as [| x t IH]; intros j s; simpl.
    - destruct j; reflexivity.
    - destruct j; simpl; [rewrite Nat.add_0_r; reflexivity |].
      rewrite IH; destruct (nth_error t j); simpl; [| reflexivity].
      rewrite Nat.add_succ_r; reflexivity. }
  rewrite (H 0%nat); destruct (nth_error options j); reflexivity.
Qed.

(** [Radio]: a selected index in [0, len) sets [value] to the key at that
    position and presses exactly that button; a negative index in
    [-len, 0) sets [value] to a key counted from the end while no button is
    pressed; any other index raises [IndexError]. *)
Theorem radio_selected_index (options : dict string) (i : Z) :
  (0 <= i < Z.of_nat (List.length options) ->
   radio_init_value options (Some i)
     = (None, option_map fst (nth_error options (Z.to_nat i))) /\
   (exists k, nth_error (map fst options) (Z.to_nat i) = Some k) /\
   (forall j lbl pressed, nth_error (radio_buttons options (Some i)) j = Some (lbl, pressed) ->
      pressed = true <-> j = Z.to_nat i)) /\
  (- Z.of_nat (List.length options) <= i < 0 ->
   radio_init_value options (Some i)
     = (None, option_map fst
                (nth_error options (Z.to_nat (Z.of_nat (List.length options) + i)))) /\
   (exists k, nth_error (map fst options)
                (Z.to_nat (Z.of_nat (List.length options) + i)) = Some k) /\
   forallb (fun b => negb (snd b)) (radio_buttons options (Some i)) = true) /\
  ((i < - Z.of_nat (List.length options) \/ Z.of_nat (List.length options) <= i) ->
   radio_init_value options (Some i) = (Some IndexError, None)).
Proof.
  unfold radio_init_value, py_index; rewrite length_map.
  set (n := Z.of_nat (List.length options)).
  split; [| split].
  - intros Hi.
    replace ((0 <=? i) && (i <? n)) with true
      by (symmetry; apply andb_true_iff; split; [apply Z.leb_le | apply Z.ltb_lt]; lia).
    assert (Hs : exists kl, nth_error options (Z.to_nat i) = Some kl).
    { destruct (nth_error options (Z.to_nat i)) as [kl |] eqn:E; [eexists; reflexivity |].
      apply nth_error_None in E; lia. }
    destruct Hs as [kl Hkl].
    rewrite nth_error_map, Hkl; simpl.
    split; [reflexivity | split; [eexists; reflexivity |]].
    intros j lbl pressed Hj; rewrite nth_error_radio_buttons in Hj.
    destruct (nth_error options j); simpl in Hj; [| discriminate].
    injection Hj as _ <-.
    rewrite Z.eqb_eq; lia.
  - intros Hi.
    replace ((0 <=? i) && (i <? n)) with false
      by (symmetry; apply andb_false_iff; left; apply Z.leb_gt; lia).
    replace ((- n <=? i) && (i <? 0)) with true
      by (symmetry; apply andb_true_iff; split; [apply Z.leb_le | apply Z.ltb_lt]; lia).
    assert (Hs : exists kl, nth_error options (Z.to_nat (n + i)) = Some kl).
    { destruct (nth_error options (Z.to_nat (n + i))) as [kl |] eqn:E;
        [eexists; reflexivity |].
      apply nth_error_None in E; lia. }
    destruct Hs as [kl Hkl].
    rewrite nth_error_map, Hkl; simpl.
    split; [reflexivity | split; [eexists; reflexivity |]].
    apply forallb_forall; intros [lbl pressed] Hin.
    apply In_nth_error in Hin as [j Hj].
    rewrite nth_error_radio_buttons in Hj.
    destruct (nth_error options j); simpl in Hj; [| discriminate].
    injection Hj as _ <-.
    replace (Z.of_nat j =? i) with false by (symmetry; apply Z.eqb_neq; lia).
    reflexivity.
  - intros Hi.
    replace ((0 <=? i) && (i <? n)) with false
      by (symmetry; destruct Hi; apply andb_false_iff;
          [left; apply Z.leb_gt | right; apply Z.ltb_ge]; lia).
    replace ((- n <=? i) && (i <? 0)) with false
      by (symmetry; destruct Hi; apply andb_false_iff;
          [left; apply Z.leb_gt | right; apply Z.ltb_ge]; lia).
    reflexivity.
Qed.

Lemma radio_selected_index_witness :
  (- Z.of_nat (List.length [("a", "A"); ("b", "B")]%string) <= -1 < 0) /\
  radio_init_value [("a", "A"); ("b", "B")]%string (Some (-1))
    = (None, option_map fst
               (nth_error [("a", "A"); ("b", "B")]%string
                  (Z.to_nat (Z.of_nat (List.length [("a", "A"); ("b", "B")]%string) + -1)))) /\
  (exists k, nth_error (map fst [("a", "A"); ("b", "B")]%string)
               (Z.to_nat (Z.of_nat (List.length [("a", "A"); ("b", "B")]%string) + -1))
             = Some k) /\
  forallb (fun b => negb (snd b))
    (radio_buttons [("a", "A"); ("b", "B")]%string (Some (-1))) = true.
Proof.
  assert (H : - Z.of_nat (List.length [("a", "A"); ("b", "B")]%string) <= -1 < 0)
    by (simpl; lia).
  split; [exact H |].
  apply (radio_selected_index [("a", "A"); ("b", "B")]%string (-1)); exact H.
Defined.
